(** * Endpoint resolver of the CLARITY frontend

    A shallow embedding of [frontend/src/config/api.ts]: the module constant
    [API_BASE_URL], the helper [getApiUrl] and the table [API_ENDPOINTS],
    followed by the properties stated about them.

    Strings.  A JavaScript string is a sequence of code units; the module
    only concatenates strings and tests whether one begins with the code
    unit of the slash.  Both operations are independent of the width of a
    code unit, so strings are modelled by [string].

    Names.  The specification calls the computation of [API_BASE_URL]
    [resolveBaseUrl], and [getApiUrl] with the module constant made an
    explicit argument [buildUrl]. *)

From Stdlib Require Import Ascii.
From stdpp Require Import gmap strings.

Local Open Scope char_scope.
Local Open Scope stdpp_scope.

(** ** String primitives of the host language *)

(** [s.startsWith(searchString)], at its default position 0. *)
Fixpoint startsWith (s searchString : string) {struct searchString} : bool :=
  match searchString with
  | EmptyString => true
  | String c rest =>
      match s with
      | EmptyString => false
      | String d s' => Ascii.eqb d c && startsWith s' rest
      end
  end.

(** [s.endsWith(searchString)] for a one-character [searchString]. *)
Fixpoint endsWithChar (s : string) (c : ascii) : bool :=
  match s with
  | EmptyString => false
  | String d EmptyString => Ascii.eqb d c
  | String _ s' => endsWithChar s' c
  end.

(** [s.includes(searchString)]: [searchString] occurs at some position. *)
Fixpoint includes (s searchString : string) : bool :=
  startsWith s searchString ||
  match s with
  | EmptyString => false
  | String _ s' => includes s' searchString
  end.

(** Number of slashes a string begins with. *)
Fixpoint leadingSlashes (s : string) : nat :=
  match s with
  | String c s' => if Ascii.eqb c "/" then S (leadingSlashes s') else 0
  | EmptyString => 0
  end.

(** [s.substring(n)]: what is left of [s] after its first [n] characters. *)
Fixpoint dropPrefix (n : nat) (s : string) : string :=
  match n, s with
  | S n', String _ s' => dropPrefix n' s'
  | _, _ => s
  end.

(** ** The module, on typed values *)

(** [import.meta.env.VITE_API_URL || '']: the configuration value is a string
    or is absent; [||] yields its left operand when that is truthy (for a
    string: non-empty) and its right operand otherwise. *)
Definition API_BASE_URL (VITE_API_URL : option string) : string :=
  match VITE_API_URL with
  | Some v => if String.eqb v "" then "" else v
  | None => ""
  end.

(** The local constant [normalizedEndpoint] of [getApiUrl]. *)
Definition normalizedEndpoint (endpoint : string) : string :=
  if startsWith endpoint "/" then endpoint else "/" +:+ endpoint.

Section WithBase.

(** The value of the module constant [API_BASE_URL], which the function
    and the table close over. *)
Variable base : string.

Definition getApiUrl (endpoint : string) : string :=
  base +:+ normalizedEndpoint endpoint.

(** The object literal [API_ENDPOINTS]. *)
Definition API_ENDPOINTS : gmap string string :=
  {[ "CLEAN_REPORT" := getApiUrl "/clean-report";
     "CLEAN_REPORT_RUNS" := getApiUrl "/clean-report/runs";
     "LIST_TABLES" := getApiUrl "/list-tables";
     "RUN_ANALYSIS" := getApiUrl "/run-analysis";
     "CHAT" := getApiUrl "/chat" ]}.

End WithBase.

(** The keys of the table, in the order of the source. *)
Definition endpointNames : list string :=
  ["CLEAN_REPORT"; "CLEAN_REPORT_RUNS"; "LIST_TABLES"; "RUN_ANALYSIS"; "CHAT"].

(** ** The module, as the run time evaluates it

    Types are erased before the module runs: a value is then any value of
    the language, a method call on a value without that method throws a
    [TypeError], and [getApiUrl] reads [API_BASE_URL] from the scope of the
    module.  This layer makes the failure branches and the ambient state
    explicit; it is related to the typed layer above by
    [runtime_getApiUrl_typed] and [runtime_evalModule_typed]. *)
Module Runtime.

Inductive JsValue : Type :=
| VUndefined
| VNull
| VBool (b : bool)
| VString (s : string).

(** The outcome of evaluating an expression. *)
Inductive Completion (A : Type) : Type :=
| Normal (a : A)
| ThrowTypeError.
Arguments Normal {A} a.
Arguments ThrowTypeError {A}.

#[export] Instance completion_ret : MRet Completion := λ A a, Normal a.
#[export] Instance completion_bind : MBind Completion := λ A B f m,
  match m with
  | Normal a => f a
  | ThrowTypeError => ThrowTypeError
  end.

Definition ToBoolean (v : JsValue) : bool :=
  match v with
  | VUndefined | VNull => false
  | VBool b => b
  | VString s => negb (String.eqb s "")
  end.

(** The conversion a template literal applies to each substitution. *)
Definition ToString (v : JsValue) : string :=
  match v with
  | VUndefined => "undefined"
  | VNull => "null"
  | VBool true => "true"
  | VBool false => "false"
  | VString s => s
  end.

(** [a || b] *)
Definition LogicalOr (a b : JsValue) : JsValue :=
  if ToBoolean a then a else b.

(** [this.startsWith(searchString)]: only strings have the method. *)
Definition callStartsWith (this : JsValue) (searchString : string) : Completion bool :=
  match this with
  | VString s => Normal (startsWith s searchString)
  | _ => ThrowTypeError
  end.

(** What the body of [getApiUrl] can see besides its argument: the
    configuration value of the environment and the module constant. *)
Record ModuleScope : Type := {
  VITE_API_URL : JsValue;
  API_BASE_URL : JsValue
}.

(** The initialiser of [API_BASE_URL]. *)
Definition evalBaseUrl (env : JsValue) : JsValue :=
  LogicalOr env (VString "").

Definition getApiUrl (scope : ModuleScope) (endpoint : JsValue) : Completion JsValue :=
  slash ← callStartsWith endpoint "/";
  let normalizedEndpoint :=
    if (slash : bool) then endpoint else VString ("/" +:+ ToString endpoint) in
  mret (VString (ToString (API_BASE_URL scope) +:+ ToString normalizedEndpoint)).

(** The object literal: its property values are evaluated in order. *)
Definition API_ENDPOINTS (scope : ModuleScope) : Completion (gmap string JsValue) :=
  cleanReport ← getApiUrl scope (VString "/clean-report");
  cleanReportRuns ← getApiUrl scope (VString "/clean-report/runs");
  listTables ← getApiUrl scope (VString "/list-tables");
  runAnalysis ← getApiUrl scope (VString "/run-analysis");
  chat ← getApiUrl scope (VString "/chat");
  mret ({[ "CLEAN_REPORT" := cleanReport;
           "CLEAN_REPORT_RUNS" := cleanReportRuns;
           "LIST_TABLES" := listTables;
           "RUN_ANALYSIS" := runAnalysis;
           "CHAT" := chat ]} : gmap string JsValue).

(** What the module exports once its top-level statements have run. *)
Record Exports : Type := {
  exported_API_BASE_URL : JsValue;
  exported_API_ENDPOINTS : gmap string JsValue
}.

Definition evalModule (env : JsValue) : Completion Exports :=
  let scope := {| VITE_API_URL := env; API_BASE_URL := evalBaseUrl env |} in
  table ← API_ENDPOINTS scope;
  mret {| exported_API_BASE_URL := API_BASE_URL scope;
          exported_API_ENDPOINTS := table |}.

(** A configuration value as the environment provides it. *)
Definition ofConfig (v : option string) : JsValue :=
  match v with
  | Some s => VString s
  | None => VUndefined
  end.

End Runtime.

(** ** Sanity checks of the embedding *)

Example getApiUrl_chat : getApiUrl "http://127.0.0.1:8082" "/chat" = "http://127.0.0.1:8082/chat".
Proof. reflexivity. Qed.

Example table_lookup : API_ENDPOINTS "" !! "CHAT" = Some "/chat".
Proof. reflexivity. Qed.

Example runtime_throws_on_undefined :
  Runtime.getApiUrl {| Runtime.VITE_API_URL := Runtime.VUndefined;
                       Runtime.API_BASE_URL := Runtime.VString "" |}
                    Runtime.VUndefined = Runtime.ThrowTypeError.
Proof. reflexivity. Qed.

Example runtime_module_unset :
  Runtime.evalModule Runtime.VUndefined
  = Runtime.Normal {| Runtime.exported_API_BASE_URL := Runtime.VString "";
                      Runtime.exported_API_ENDPOINTS := Runtime.VString <$> API_ENDPOINTS "" |}.
Proof. reflexivity. Qed.

Example runtime_base_not_a_string :
  Runtime.evalBaseUrl (Runtime.VBool true) = Runtime.VBool true.
Proof. reflexivity. Qed.

(** ** Lemmas on the string primitives *)

Lemma append_nil_l (s : string) : "" +:+ s = s.
Proof. reflexivity. Qed.

Lemma append_cons_l (c : ascii) (a b : string) : String c a +:+ b = String c (a +:+ b).
Proof. reflexivity. Qed.

Lemma append_empty_r (s : string) : s +:+ "" = s.
Proof. induction s as [|c s IH]; [done |]. by rewrite append_cons_l, IH. Qed.

Lemma startsWith_slash_cons (c : ascii) (s : string) :
  startsWith (String c s) "/" = Ascii.eqb c "/".
Proof. simpl. apply andb_true_r. Qed.

Lemma startsWith_slash_iff (s : string) :
  startsWith s "/" = true ↔ ∃ rest, s = String "/" rest.
Proof.
  destruct s as [|c s].
  - split; [discriminate | intros [rest Hrest]; discriminate].
  - rewrite startsWith_slash_cons. split.
    + intros Hc. apply Ascii.eqb_eq in Hc. subst c. by exists s.
    + intros [rest Hrest]. injection Hrest as -> _. apply Ascii.eqb_refl.
Qed.

Lemma startsWith_append (a b : string) : startsWith (a +:+ b) a = true.
Proof.
  induction a as [|c a IH]; [by destruct b |].
  rewrite append_cons_l. simpl. by rewrite Ascii.eqb_refl, IH.
Qed.

Lemma dropPrefix_append (a b : string) : dropPrefix (String.length a) (a +:+ b) = b.
Proof.
  induction a as [|c a IH]; [by destruct b |].
  rewrite append_cons_l. exact IH.
Qed.

Lemma leadingSlashes_slash (s : string) :
  leadingSlashes (String "/" s) = S (leadingSlashes s).
Proof. reflexivity. Qed.

Lemma leadingSlashes_no_slash (s : string) :
  startsWith s "/" = false → leadingSlashes s = 0.
Proof.
  destruct s as [|c s]; [done |].
  rewrite startsWith_slash_cons. simpl. by intros ->.
Qed.

Lemma leadingSlashes_zero (s : string) :
  leadingSlashes s = 0 → startsWith s "/" = false.
Proof.
  destruct s as [|c s]; [done |].
  rewrite startsWith_slash_cons. simpl. by destruct (Ascii.eqb c "/").
Qed.

(** A double slash in [String c s] is at the front or inside [s]. *)
Lemma includes_double_cons (c : ascii) (s : string) :
  includes (String c s) "//" = (Ascii.eqb c "/" && startsWith s "/") || includes s "//".
Proof. reflexivity. Qed.

(** A double slash in a concatenation is in the left part, in the right
    part, or made of the last character of the one and the first of the
    other. *)
Lemma includes_double_append (a b : string) :
  includes (a +:+ b) "//"
  = includes a "//" || (endsWithChar a "/" && startsWith b "/") || includes b "//".
Proof.
  induction a as [|c a IH].
  - reflexivity.
  - change (String c a +:+ b) with (String c (a +:+ b)).
    rewrite !includes_double_cons, IH. destruct a as [|d a].
    + change ("" +:+ b) with b. simpl endsWithChar.
      change (includes "" "//") with false.
      change (startsWith "" "/") with false.
      destruct (Ascii.eqb c "/"), (startsWith b "/"), (includes b "//"); reflexivity.
    + change (String d a +:+ b) with (String d (a +:+ b)).
      rewrite !startsWith_slash_cons.
      change (endsWithChar (String c (String d a)) "/") with (endsWithChar (String d a) "/").
      destruct (Ascii.eqb c "/"), (Ascii.eqb d "/"), (includes (String d a) "//"),
        (endsWithChar (String d a) "/"), (startsWith b "/"), (includes b "//"); reflexivity.
Qed.

(** ** Lemmas on the module *)

Lemma normalizedEndpoint_startsWith (e : string) :
  startsWith (normalizedEndpoint e) "/" = true.
Proof.
  unfold normalizedEndpoint. destruct (startsWith e "/") eqn:He; [done | reflexivity].
Qed.

Lemma normalizedEndpoint_fixed (e : string) :
  startsWith e "/" = true → normalizedEndpoint e = e.
Proof. unfold normalizedEndpoint. by intros ->. Qed.

Lemma normalizedEndpoint_prepend (e : string) :
  startsWith e "/" = false → normalizedEndpoint e = String "/" e.
Proof. unfold normalizedEndpoint. by intros ->. Qed.

Lemma normalizedEndpoint_includes_double (e : string) :
  includes (normalizedEndpoint e) "//" = includes e "//".
Proof.
  destruct (startsWith e "/") eqn:He.
  - by rewrite normalizedEndpoint_fixed.
  - rewrite normalizedEndpoint_prepend by done.
    rewrite includes_double_cons, He. reflexivity.
Qed.

Lemma getApiUrl_dropPrefix (base e : string) :
  dropPrefix (String.length base) (getApiUrl base e) = normalizedEndpoint e.
Proof. apply dropPrefix_append. Qed.

Lemma getApiUrl_empty_base (e : string) : getApiUrl "" e = normalizedEndpoint e.
Proof. reflexivity. Qed.

(** On a string base and a string argument the run-time evaluation of
    [getApiUrl] completes normally, with the string of the typed layer. *)
Lemma runtime_getApiUrl_typed (env : Runtime.JsValue) (base e : string) :
  Runtime.getApiUrl {| Runtime.VITE_API_URL := env;
                       Runtime.API_BASE_URL := Runtime.VString base |}
                    (Runtime.VString e)
  = Runtime.Normal (Runtime.VString (getApiUrl base e)).
Proof.
  unfold Runtime.getApiUrl, Runtime.callStartsWith, getApiUrl, normalizedEndpoint.
  destruct (startsWith e "/"); reflexivity.
Qed.

Lemma runtime_evalBaseUrl_typed (v : option string) :
  Runtime.evalBaseUrl (Runtime.ofConfig v) = Runtime.VString (API_BASE_URL v).
Proof.
  destruct v as [s|]; [| reflexivity].
  unfold Runtime.evalBaseUrl, Runtime.LogicalOr. simpl.
  by destruct (String.eqb s "").
Qed.

Lemma runtime_API_ENDPOINTS_typed (env : Runtime.JsValue) (base : string) :
  Runtime.API_ENDPOINTS {| Runtime.VITE_API_URL := env;
                           Runtime.API_BASE_URL := Runtime.VString base |}
  = Runtime.Normal (Runtime.VString <$> API_ENDPOINTS base).
Proof.
  unfold Runtime.API_ENDPOINTS. rewrite !runtime_getApiUrl_typed. reflexivity.
Qed.

Lemma runtime_evalModule_typed (v : option string) :
  Runtime.evalModule (Runtime.ofConfig v)
  = Runtime.Normal
      {| Runtime.exported_API_BASE_URL := Runtime.VString (API_BASE_URL v);
         Runtime.exported_API_ENDPOINTS :=
           Runtime.VString <$> API_ENDPOINTS (API_BASE_URL v) |}.
Proof.
  unfold Runtime.evalModule. cbv zeta.
  rewrite runtime_evalBaseUrl_typed, runtime_API_ENDPOINTS_typed. reflexivity.
Qed.

Lemma one_leading_slash_of_no_double (p : string) :
  startsWith p "/" = true → includes p "//" = false → leadingSlashes p = 1.
Proof.
  intros Hp Hd. apply startsWith_slash_iff in Hp as [rest ->].
  rewrite includes_double_cons in Hd. apply orb_false_elim in Hd as [Hfront _].
  rewrite Ascii.eqb_refl in Hfront. simpl in Hfront.
  rewrite leadingSlashes_slash. f_equal. by apply leadingSlashes_no_slash.
Qed.

(** Case analysis on a key bound in the table. *)
Lemma API_ENDPOINTS_lookup_Some (base name url : string) :
  API_ENDPOINTS base !! name = Some url →
  (name = "CLEAN_REPORT" ∧ url = getApiUrl base "/clean-report") ∨
  (name = "CLEAN_REPORT_RUNS" ∧ url = getApiUrl base "/clean-report/runs") ∨
  (name = "LIST_TABLES" ∧ url = getApiUrl base "/list-tables") ∨
  (name = "RUN_ANALYSIS" ∧ url = getApiUrl base "/run-analysis") ∨
  (name = "CHAT" ∧ url = getApiUrl base "/chat").
Proof.
  unfold API_ENDPOINTS. intros H.
  repeat (apply lookup_insert_Some in H as [[<- <-]|[_ H]]; [tauto |]).
  apply lookup_singleton_Some in H as [<- <-]. tauto.
Qed.

(** ** The claims *)

(** C1. For every base and every endpoint [e], [getApiUrl] returns the base
    followed by the normalized endpoint, and normalization prepends a slash
    exactly when [e] does not begin with one: the result is [base + e] if
    [e] starts with a slash and [base + "/" + e] otherwise. *)
Theorem getApiUrl_concat (base e : string) :
  getApiUrl base e = base +:+ normalizedEndpoint e ∧
  normalizedEndpoint e = (if startsWith e "/" then e else "/" +:+ e) ∧
  getApiUrl base e = (if startsWith e "/" then base +:+ e else base +:+ "/" +:+ e).
Proof.
  unfold getApiUrl, normalizedEndpoint. by destruct (startsWith e "/").
Qed.

(** C3. The computation of [API_BASE_URL] returns the configuration value
    verbatim when it is a present, non-empty string, and the empty string
    when it is absent or empty; the run-time evaluation of the initialiser
    yields that string, and has no throwing outcome. *)
Theorem API_BASE_URL_resolve (v : option string) (c : ascii) (s : string) :
  API_BASE_URL (Some (String c s)) = String c s ∧
  API_BASE_URL (Some "") = "" ∧
  API_BASE_URL None = "" ∧
  Runtime.evalBaseUrl (Runtime.ofConfig v) = Runtime.VString (API_BASE_URL v).
Proof.
  repeat split. apply runtime_evalBaseUrl_typed.
Qed.

(** C4. For every base and endpoint [e], the result is the base followed by
    a remainder; when [e] does not begin with a slash the remainder is a
    single slash followed by [e] and so begins with exactly one slash, and
    when [e] begins with a slash the remainder is [e] itself. *)
Theorem getApiUrl_slash_after_base (base e : string) :
  let rest := dropPrefix (String.length base) (getApiUrl base e) in
  getApiUrl base e = base +:+ rest ∧
  if startsWith e "/" then rest = e
  else rest = String "/" e ∧ leadingSlashes rest = 1.
Proof.
  cbv zeta. rewrite getApiUrl_dropPrefix. split; [reflexivity |].
  destruct (startsWith e "/") eqn:He.
  - by apply normalizedEndpoint_fixed.
  - rewrite normalizedEndpoint_prepend by done. split; [reflexivity |].
    rewrite leadingSlashes_slash. f_equal. by apply leadingSlashes_no_slash.
Qed.

(** C5. With the empty base the table binds exactly the five keys to
    "/clean-report", "/clean-report/runs", "/list-tables", "/run-analysis"
    and "/chat"; for every base the table has exactly these five keys, each
    bound to the base followed by its literal path, which normalization
    leaves as it is. *)
Theorem API_ENDPOINTS_table (base : string) :
  API_ENDPOINTS "" = {[ "CLEAN_REPORT" := "/clean-report";
                        "CLEAN_REPORT_RUNS" := "/clean-report/runs";
                        "LIST_TABLES" := "/list-tables";
                        "RUN_ANALYSIS" := "/run-analysis";
                        "CHAT" := "/chat" ]} ∧
  dom (API_ENDPOINTS base) = list_to_set endpointNames ∧
  size (API_ENDPOINTS base) = 5 ∧
  API_ENDPOINTS base !! "CLEAN_REPORT" = Some (base +:+ "/clean-report") ∧
  API_ENDPOINTS base !! "CLEAN_REPORT_RUNS" = Some (base +:+ "/clean-report/runs") ∧
  API_ENDPOINTS base !! "LIST_TABLES" = Some (base +:+ "/list-tables") ∧
  API_ENDPOINTS base !! "RUN_ANALYSIS" = Some (base +:+ "/run-analysis") ∧
  API_ENDPOINTS base !! "CHAT" = Some (base +:+ "/chat") ∧
  API_ENDPOINTS base
  = (λ path, base +:+ normalizedEndpoint path) <$> API_ENDPOINTS "".
Proof.
  repeat split.
Qed.

(** C6. The concrete scenarios: with the configuration unset the base is
    empty and "clean-report" resolves to "/clean-report"; with the
    configuration "http://127.0.0.1:8082", "/chat" resolves to
    "http://127.0.0.1:8082/chat" and "list-tables" resolves to
    "http://127.0.0.1:8082/list-tables". *)
Theorem concrete_scenarios :
  API_BASE_URL None = "" ∧
  getApiUrl "" "clean-report" = "/clean-report" ∧
  getApiUrl (API_BASE_URL (Some "http://127.0.0.1:8082")) "/chat"
  = "http://127.0.0.1:8082/chat" ∧
  getApiUrl (API_BASE_URL (Some "http://127.0.0.1:8082")) "list-tables"
  = "http://127.0.0.1:8082/list-tables".
Proof. repeat split. Qed.

(** C7. Every operation is total on its domain: for every configuration
    value, absent or a string, and every endpoint string, with or without a
    leading slash, the run-time evaluation of the initialiser of
    [API_BASE_URL], of a call of [getApiUrl] and of the whole module
    completes normally with a string (for the module: with the table of
    strings), and never with a thrown error. *)
Theorem module_total (v : option string) (env : Runtime.JsValue) (base e : string) :
  Runtime.evalBaseUrl (Runtime.ofConfig v) = Runtime.VString (API_BASE_URL v) ∧
  Runtime.getApiUrl {| Runtime.VITE_API_URL := env;
                       Runtime.API_BASE_URL := Runtime.VString base |}
                    (Runtime.VString e)
  = Runtime.Normal (Runtime.VString (getApiUrl base e)) ∧
  Runtime.API_ENDPOINTS {| Runtime.VITE_API_URL := env;
                           Runtime.API_BASE_URL := Runtime.VString base |}
  = Runtime.Normal (Runtime.VString <$> API_ENDPOINTS base) ∧
  Runtime.evalModule (Runtime.ofConfig v)
  = Runtime.Normal
      {| Runtime.exported_API_BASE_URL := Runtime.VString (API_BASE_URL v);
         Runtime.exported_API_ENDPOINTS :=
           Runtime.VString <$> API_ENDPOINTS (API_BASE_URL v) |}.
Proof.
  split; [apply runtime_evalBaseUrl_typed |].
  split; [apply runtime_getApiUrl_typed |].
  split; [apply runtime_API_ENDPOINTS_typed | apply runtime_evalModule_typed].
Qed.

(** C8. [getApiUrl] is deterministic and pure: in two module scopes that
    agree on [API_BASE_URL], whatever else they hold, two calls with the
    same argument have the same outcome; the outcome depends on nothing but
    the base and the endpoint. *)
Theorem getApiUrl_deterministic
    (scope1 scope2 : Runtime.ModuleScope) (e1 e2 : Runtime.JsValue) :
  Runtime.API_BASE_URL scope1 = Runtime.API_BASE_URL scope2 →
  e1 = e2 →
  Runtime.getApiUrl scope1 e1 = Runtime.getApiUrl scope2 e2.
Proof.
  intros Hbase ->. unfold Runtime.getApiUrl. by rewrite Hbase.
Qed.

Lemma getApiUrl_deterministic_witness :
  Runtime.getApiUrl {| Runtime.VITE_API_URL := Runtime.VUndefined;
                       Runtime.API_BASE_URL := Runtime.VString "" |}
                    (Runtime.VString "chat")
  = Runtime.getApiUrl {| Runtime.VITE_API_URL := Runtime.VString "";
                         Runtime.API_BASE_URL := Runtime.VString "" |}
                      (Runtime.VString "chat").
Proof.
  apply (getApiUrl_deterministic
           {| Runtime.VITE_API_URL := Runtime.VUndefined;
              Runtime.API_BASE_URL := Runtime.VString "" |}
           {| Runtime.VITE_API_URL := Runtime.VString "";
              Runtime.API_BASE_URL := Runtime.VString "" |}
           (Runtime.VString "chat") (Runtime.VString "chat")); reflexivity.
Defined.

(** C9. For the empty endpoint, [getApiUrl] returns the base followed by a
    single slash: the empty endpoint is normalized to "/". *)
Theorem getApiUrl_empty_endpoint (base : string) :
  normalizedEndpoint "" = "/" ∧ getApiUrl base "" = base +:+ "/".
Proof. split; reflexivity. Qed.

(** C10. Normalization is idempotent and the base is a prefix of the
    result: with the empty base, applying [getApiUrl] to its own result
    changes nothing; for every base the result begins with the base and is
    the base followed by the remainder, and for an endpoint that begins with
    a slash the remainder is the endpoint verbatim. *)
Theorem getApiUrl_idempotent_prefix (base e rest : string) :
  getApiUrl "" (getApiUrl "" e) = getApiUrl "" e ∧
  startsWith (getApiUrl base e) base = true ∧
  getApiUrl base e
  = base +:+ dropPrefix (String.length base) (getApiUrl base e) ∧
  dropPrefix (String.length base) (getApiUrl base (String "/" rest))
  = String "/" rest.
Proof.
  split; [| split; [| split]].
  - rewrite !getApiUrl_empty_base.
    apply normalizedEndpoint_fixed, normalizedEndpoint_startsWith.
  - apply startsWith_append.
  - by rewrite getApiUrl_dropPrefix.
  - rewrite getApiUrl_dropPrefix. reflexivity.
Qed.

(** C2, as stated, fails: the endpoint "//x" begins with a slash and is
    left as it is, so with the empty base the resolved path begins with two
    slashes and contains a double slash. *)
Lemma one_leading_slash_counterexample :
  getApiUrl "" "//x" = "//x" ∧
  leadingSlashes (getApiUrl "" "//x") = 2 ∧
  includes (getApiUrl "" "//x") "//" = true ∧
  ¬ (∀ base e path : string,
       getApiUrl base e = base +:+ path →
       leadingSlashes path = 1 ∧ includes path "//" = false).
Proof.
  repeat split. intros Hclaim.
  destruct (Hclaim "" "//x" "//x" eq_refl) as [Hone _]. discriminate Hone.
Qed.

(** C2, amended. For every base and endpoint [e], the resolved path (what
    follows the base in the result) begins with a slash; it begins with
    exactly one slash and contains no double slash if and only if [e]
    contains no double slash; the whole result contains a double slash
    exactly when the base contains one, the base ends with a slash, or [e]
    contains one; and every value of the endpoint table is the base followed
    by a path that begins with exactly one slash and contains no double
    slash. *)
Theorem resolved_path_slashes (base e : string) :
  let path := dropPrefix (String.length base) (getApiUrl base e) in
  getApiUrl base e = base +:+ path ∧
  startsWith path "/" = true ∧
  (leadingSlashes path = 1 ∧ includes path "//" = false
   ↔ includes e "//" = false) ∧
  includes (getApiUrl base e) "//"
  = includes base "//" || endsWithChar base "/" || includes e "//" ∧
  (∀ name url : string,
     API_ENDPOINTS base !! name = Some url →
     ∃ p, url = base +:+ p ∧ leadingSlashes p = 1 ∧ includes p "//" = false).
Proof.
  cbv zeta. rewrite getApiUrl_dropPrefix.
  split; [reflexivity |].
  split; [apply normalizedEndpoint_startsWith |].
  split; [| split].
  - rewrite normalizedEndpoint_includes_double. split; [tauto |].
    intros He. split; [| done].
    apply one_leading_slash_of_no_double.
    + apply normalizedEndpoint_startsWith.
    + by rewrite normalizedEndpoint_includes_double.
  - unfold getApiUrl. rewrite includes_double_append.
    by rewrite normalizedEndpoint_startsWith, normalizedEndpoint_includes_double,
      andb_true_r.
  - intros name url Hlookup.
    apply API_ENDPOINTS_lookup_Some in Hlookup.
    destruct Hlookup as [[_ ->]|[[_ ->]|[[_ ->]|[[_ ->]|[_ ->]]]]];
      (eexists; split; [reflexivity | split; reflexivity]).
Qed.

Lemma resolved_path_slashes_witness :
  (leadingSlashes "/list-tables" = 1 ∧ includes "/list-tables" "//" = false) ∧
  ∃ p, "http://127.0.0.1:8082/chat" = "http://127.0.0.1:8082" +:+ p
       ∧ leadingSlashes p = 1 ∧ includes p "//" = false.
Proof.
  pose proof (resolved_path_slashes "http://127.0.0.1:8082" "list-tables")
    as (_ & _ & Hiff & _ & Htable).
  split.
  - apply Hiff. reflexivity.
  - apply (Htable "CHAT"). reflexivity.
Defined.


(** ** Further properties of the module *)

Lemma append_assoc (a b c : string) : (a +:+ b) +:+ c = a +:+ (b +:+ c).
Proof.
  induction a as [|x a IH]; [reflexivity |].
  by rewrite !append_cons_l, IH.
Qed.

Lemma append_inj_l (a b c : string) : a +:+ b = a +:+ c → b = c.
Proof.
  induction a as [|x a IH]; [done |].
  rewrite !append_cons_l. intros H. injection H as H. by apply IH.
Qed.

Lemma length_append (a b : string) :
  String.length (a +:+ b) = String.length a + String.length b.
Proof.
  induction a as [|x a IH]; [reflexivity |].
  rewrite append_cons_l. simpl. by rewrite IH.
Qed.

Lemma length_normalizedEndpoint (e : string) :
  String.length (normalizedEndpoint e)
  = String.length e + (if startsWith e "/" then 0 else 1).
Proof.
  destruct (startsWith e "/") eqn:He.
  - rewrite normalizedEndpoint_fixed by done. lia.
  - rewrite normalizedEndpoint_prepend by done. simpl. lia.
Qed.

(** Whether a concatenation begins with a slash is decided by its left part,
    unless that part is empty. *)
Lemma startsWith_slash_append (a b : string) :
  startsWith (a +:+ b) "/" = if String.eqb a "" then startsWith b "/" else startsWith a "/".
Proof.
  destruct a as [|x a]; [reflexivity |].
  rewrite append_cons_l, !startsWith_slash_cons. reflexivity.
Qed.

(** The run-time call on a string argument, whatever value the scope holds
    for the base. *)
Lemma runtime_getApiUrl_string (scope : Runtime.ModuleScope) (e : string) :
  Runtime.getApiUrl scope (Runtime.VString e)
  = Runtime.Normal
      (Runtime.VString (getApiUrl (Runtime.ToString (Runtime.API_BASE_URL scope)) e)).
Proof.
  unfold Runtime.getApiUrl, Runtime.callStartsWith, getApiUrl, normalizedEndpoint.
  destruct (startsWith e "/"); reflexivity.
Qed.



Lemma evalBaseUrl_falsy (env : Runtime.JsValue) :
  Runtime.ToBoolean env = false → Runtime.evalBaseUrl env = Runtime.VString "".
Proof. unfold Runtime.evalBaseUrl, Runtime.LogicalOr. by intros ->. Qed.



(** X3. With a falsy configuration value ([undefined], [null], [false] or
    the empty string) the base is the empty string, so every endpoint
    resolves to a relative path: the normalized endpoint alone, never
    prefixed by the text "undefined", "null" or "false". *)
Theorem runtime_falsy_config_relative (env : Runtime.JsValue) (e : string) :
  Runtime.ToBoolean env = false →
  Runtime.getApiUrl {| Runtime.VITE_API_URL := env;
                       Runtime.API_BASE_URL := Runtime.evalBaseUrl env |}
                    (Runtime.VString e)
  = Runtime.Normal (Runtime.VString (normalizedEndpoint e)).
Proof.
  intros Henv. rewrite runtime_getApiUrl_string.
  cbn [Runtime.API_BASE_URL]. by rewrite evalBaseUrl_falsy.
Qed.

Lemma runtime_falsy_config_relative_witness :
  Runtime.getApiUrl {| Runtime.VITE_API_URL := Runtime.VNull;
                       Runtime.API_BASE_URL := Runtime.evalBaseUrl Runtime.VNull |}
                    (Runtime.VString "chat")
  = Runtime.Normal (Runtime.VString (normalizedEndpoint "chat")).
Proof.
  apply (runtime_falsy_config_relative Runtime.VNull "chat"). reflexivity.
Defined.

(** X4. Resolving an already resolved URL again changes it unless the base
    is empty: [getApiUrl] is idempotent exactly for the empty base, and for
    any other base the second call makes the URL longer by at least the
    length of the base. *)
Theorem getApiUrl_twice_iff (base e : string) :
  (getApiUrl base (getApiUrl base e) = getApiUrl base e ↔ base = "") ∧
  String.length (getApiUrl base e) + String.length base
  ≤ String.length (getApiUrl base (getApiUrl base e)).
Proof.
  assert (Hlen : String.length (getApiUrl base e) + String.length base
                 ≤ String.length (getApiUrl base (getApiUrl base e))).
  { unfold getApiUrl at 2. rewrite length_append, length_normalizedEndpoint. lia. }
  split; [| exact Hlen]. split.
  - intros Heq. rewrite Heq in Hlen.
    destruct base as [|c base]; [done |]. simpl in Hlen. lia.
  - intros ->. rewrite !getApiUrl_empty_base.
    apply normalizedEndpoint_fixed, normalizedEndpoint_startsWith.
Qed.

(** X5. Two endpoints resolve to the same URL exactly when they are equal or
    differ only by the optional leading slash: one of them does not begin
    with a slash and the other is that one with a slash in front. *)
Theorem getApiUrl_collision_iff (base e1 e2 : string) :
  getApiUrl base e1 = getApiUrl base e2
  ↔ e1 = e2
    ∨ (startsWith e2 "/" = false ∧ e1 = String "/" e2)
    ∨ (startsWith e1 "/" = false ∧ e2 = String "/" e1).
Proof.
  unfold getApiUrl. split.
  - intros H. apply append_inj_l in H.
    destruct (startsWith e1 "/") eqn:H1, (startsWith e2 "/") eqn:H2.
    + rewrite !normalizedEndpoint_fixed in H by done. by left.
    + rewrite normalizedEndpoint_fixed, normalizedEndpoint_prepend in H by done.
      right; left. done.
    + rewrite normalizedEndpoint_prepend, normalizedEndpoint_fixed in H by done.
      right; right. done.
    + rewrite !normalizedEndpoint_prepend in H by done. injection H as ->. by left.
  - intros [-> | [[H2 ->] | [H1 ->]]]; [reflexivity | |]; f_equal.
    + rewrite normalizedEndpoint_fixed by apply startsWith_slash_cons.
      by rewrite normalizedEndpoint_prepend.
    + rewrite (normalizedEndpoint_fixed (String "/" e1)) by apply startsWith_slash_cons.
      by rewrite normalizedEndpoint_prepend.
Qed.

(** X6. For every base the endpoint table is injective: two names bound to
    the same URL are the same name, so the five logical endpoints never
    share a URL. *)
Theorem API_ENDPOINTS_injective (base name1 name2 url : string) :
  API_ENDPOINTS base !! name1 = Some url →
  API_ENDPOINTS base !! name2 = Some url →
  name1 = name2.
Proof.
  intros H1 H2.
  apply API_ENDPOINTS_lookup_Some in H1, H2.
  destruct H1 as [[-> ->]|[[-> ->]|[[-> ->]|[[-> ->]|[-> ->]]]]];
    destruct H2 as [[-> H]|[[-> H]|[[-> H]|[[-> H]|[-> H]]]]];
    first [reflexivity | apply append_inj_l in H; discriminate H].
Qed.

Lemma API_ENDPOINTS_injective_witness :
  ("CHAT" : string) = "CHAT".
Proof.
  apply (API_ENDPOINTS_injective "http://127.0.0.1:8082" "CHAT" "CHAT"
           "http://127.0.0.1:8082/chat"); reflexivity.
Defined.

(** X7. The result is as long as the base and the endpoint together, plus
    one exactly when a slash had to be prepended; hence it is never the
    empty string and never the bare base, even for the empty endpoint. *)
Theorem getApiUrl_length (base e : string) :
  String.length (getApiUrl base e)
  = String.length base + String.length e + (if startsWith e "/" then 0 else 1) ∧
  getApiUrl base e ≠ "" ∧
  getApiUrl base e ≠ base.
Proof.
  assert (Hlen : String.length (getApiUrl base e)
                 = String.length base + String.length e
                   + (if startsWith e "/" then 0 else 1)).
  { unfold getApiUrl. rewrite length_append, length_normalizedEndpoint. lia. }
  assert (Hpos : String.length base < String.length (getApiUrl base e)).
  { rewrite Hlen. destruct (startsWith e "/") eqn:He; [| lia].
    apply startsWith_slash_iff in He as [rest ->]. simpl. lia. }
  split; [exact Hlen |]. split.
  - intros Heq. rewrite Heq in Hpos. simpl in Hpos. lia.
  - intros Heq. rewrite Heq in Hpos. lia.
Qed.

(** X8. A base made of an origin and a path prefix can be applied in two
    steps: resolving against [origin + prefix] is resolving against
    [prefix] and putting [origin] in front, for a single endpoint and for
    the whole endpoint table. *)
Theorem getApiUrl_base_append (origin pfx e : string) :
  getApiUrl (origin +:+ pfx) e = origin +:+ getApiUrl pfx e ∧
  API_ENDPOINTS (origin +:+ pfx) = (λ url, origin +:+ url) <$> API_ENDPOINTS pfx.
Proof.
  assert (Hone : ∀ e', getApiUrl (origin +:+ pfx) e' = origin +:+ getApiUrl pfx e').
  { intros e'. unfold getApiUrl. apply append_assoc. }
  split; [apply Hone |].
  unfold API_ENDPOINTS. rewrite !fmap_insert, map_fmap_singleton, !Hone. reflexivity.
Qed.

(** X9. Appending a suffix to an endpoint before resolving it is the same as
    appending it to the resolved URL, except in one case: the endpoint is
    empty and the suffix begins with a slash (then the resolved empty
    endpoint has already contributed a slash of its own). *)
Theorem getApiUrl_suffix_iff (base e suffix : string) :
  getApiUrl base (e +:+ suffix) = getApiUrl base e +:+ suffix
  ↔ e ≠ "" ∨ startsWith suffix "/" = false.
Proof.
  unfold getApiUrl. rewrite append_assoc. split.
  - intros H. apply append_inj_l in H.
    destruct e as [|c e]; [| by left]. right.
    destruct (startsWith suffix "/") eqn:Hs; [| reflexivity].
    rewrite append_nil_l, normalizedEndpoint_fixed in H by done.
    apply (f_equal String.length) in H.
    change (normalizedEndpoint "") with "/" in H.
    rewrite length_append in H. simpl in H. lia.
  - intros Hcase. f_equal. unfold normalizedEndpoint.
    rewrite startsWith_slash_append. destruct e as [|c e].
    + destruct Hcase as [Hne | Hs]; [done |].
      rewrite append_nil_l. simpl String.eqb. cbv iota. rewrite Hs. reflexivity.
    + simpl String.eqb. cbv iota.
      destruct (startsWith (String c e) "/"); [reflexivity |].
      by rewrite append_assoc.
Qed.
